(** * EcsDeployment: the request sent to the CodeDeploy custom resource

    A shallow embedding of [src/ecs-deployment/index.ts].  The class
    [EcsDeployment] is a CDK construct: its constructor registers itself in
    the construct tree under the deployment group, creates an
    [EcsDeploymentProvider], derives the list of automatic-rollback events
    from three optional booleans and registers one [cdk.CustomResource]
    carrying a flat property bag.

    Construction mutates the construct tree and may throw, so it is written
    in a state-and-exception monad over a [World]; the derivations that the
    constructor performs on its own arguments are pure functions. *)

From Stdlib Require Import String Ascii List Bool ZArith Lia.
Import ListNotations.
Open Scope string_scope.

(** ** JavaScript values used by the constructor *)

Module Js.

(** A property value: a string, or [undefined] for an absent optional. *)
Inductive value : Type :=
| undefined
| str (s : string).

Definition of_option (o : option string) : value :=
  match o with
  | Some s => str s
  | None => undefined
  end.

(** Truthiness of an optional boolean ([undefined] is falsy). *)
Definition truthy (b : option bool) : bool :=
  match b with
  | Some true => true
  | _ => false
  end.

(** [a || b] where [a] is an object or [undefined]: objects are truthy. *)
Definition or {A : Type} (a : option A) (b : A) : A :=
  match a with
  | Some x => x
  | None => b
  end.

(** [Boolean.prototype.toString]. *)
Definition Boolean_toString (b : bool) : string :=
  if b then "true" else "false".

(** [Array.prototype.push] on an immutable list. *)
Definition push {A : Type} (l : list A) (x : A) : list A := l ++ [x].

(** [Array.prototype.join] on an array of strings. *)
Definition join (sep : string) (l : list string) : string :=
  String.concat sep l.

(** [String.prototype.split] with a one-character separator: the pieces
    between the separators, so the empty string gives one empty piece. *)
Fixpoint split (sep : ascii) (s : string) : list string :=
  match s with
  | EmptyString => [""]
  | String c rest =>
      if Ascii.eqb c sep then "" :: split sep rest
      else match split sep rest with
           | [] => [String c ""]
           | piece :: pieces => String c piece :: pieces
           end
  end.

(** An object literal: its own keys in insertion order with their values.
    A key whose value is [undefined] is still an own key. *)
Definition object : Type := list (string * value).

Definition keys (o : object) : list string := map fst o.

Fixpoint get (o : object) (k : string) : value :=
  match o with
  | [] => undefined
  | (k', v) :: rest => if String.eqb k k' then v else get rest k
  end.

(** The keys that survive when [undefined] values are dropped. *)
Definition definedKeys (o : object) : list string :=
  keys (filter (fun kv => match snd kv with undefined => false | str _ => true end) o).

End Js.

(** ** Collaborators' data *)

(** [cdk.Duration]: an amount in a unit. *)
Inductive TimeUnit : Type := Milliseconds | Seconds | Minutes | Hours | Days.

Record Duration : Type := mkDuration {
  amount : Z;
  unit : TimeUnit
}.

Module DurationStatics.
Definition minutes (n : Z) : Duration := mkDuration n Minutes.
End DurationStatics.

(** A construct is identified by its path from the root of the tree. *)
Definition Path : Type := list string.

Definition Path_eq_dec : forall p q : Path, {p = q} + {p <> q} :=
  list_eq_dec string_dec.

Record IEcsApplication : Type := {
  applicationName : string
}.

Record IEcsDeploymentConfig : Type := {
  deploymentConfigName : string
}.

(** [codedeploy.IEcsDeploymentGroup]; it is a construct, so it has a node. *)
Record IEcsDeploymentGroup : Type := {
  dg_node : Path;
  application : IEcsApplication;
  deploymentConfig : IEcsDeploymentConfig;
  deploymentGroupName : string
}.

(** [codedeploy.AutoRollbackConfig]: three optional booleans. *)
Record AutoRollbackConfig : Type := {
  deploymentInAlarm : option bool;
  failedDeployment : option bool;
  stoppedDeployment : option bool
}.

(** Modelled from the spec: [EcsAppSpec] lives in [../ecs-appspec], outside
    the sources at hand.  The spec gives its contract: a model "producing a
    serialized string representation of the deployment specification".  An
    AppSpec is represented by that serialization. *)
Record EcsAppSpec : Type := {
  toString : string
}.

(** ** Construction properties (lines 10-44) *)

Record EcsDeploymentProps : Type := {
  deploymentGroup : IEcsDeploymentGroup;
  appspec : EcsAppSpec;
  autoRollback : option AutoRollbackConfig;
  description : option string;
  timeout : option Duration
}.

(** [props.autoRollback?.field]: [undefined] when [autoRollback] is absent. *)
Definition optChain (r : option AutoRollbackConfig)
    (field : AutoRollbackConfig -> option bool) : option bool :=
  match r with
  | Some c => field c
  | None => None
  end.

(** ** The pure parts of the constructor *)

(** Lines 75-84: the event array after the three conditional pushes. *)
Definition autoRollbackConfigurationEvents (props : EcsDeploymentProps) : list string :=
  let events : list string := [] in
  let events :=
    if Js.truthy (optChain (autoRollback props) deploymentInAlarm)
    then Js.push events "DEPLOYMENT_STOP_ON_ALARM" else events in
  let events :=
    if Js.truthy (optChain (autoRollback props) failedDeployment)
    then Js.push events "DEPLOYMENT_FAILURE" else events in
  let events :=
    if Js.truthy (optChain (autoRollback props) stoppedDeployment)
    then Js.push events "DEPLOYMENT_STOP_ON_REQUEST" else events in
  events.

(** Lines 89-97: the [properties] object literal of the custom resource. *)
Definition requestProperties (props : EcsDeploymentProps) : Js.object :=
  let events := autoRollbackConfigurationEvents props in
  [ ("applicationName",
      Js.str (applicationName (application (deploymentGroup props))));
    ("deploymentConfigName",
      Js.str (deploymentConfigName (deploymentConfig (deploymentGroup props))));
    ("deploymentGroupName",
      Js.str (deploymentGroupName (deploymentGroup props)));
    ("autoRollbackConfigurationEnabled",
      Js.str (Js.Boolean_toString (0 <? length events)%nat));
    ("autoRollbackConfigurationEvents",
      Js.str (Js.join "," events));
    ("description", Js.of_option (description props));
    ("revisionAppSpecContent", Js.str (toString (appspec props))) ].

(** ** The construct tree and the effects of construction *)

(** CDK strings that are only resolved at deployment time.  A token records
    what the string stands for (whose service token, which attribute of which
    resource); the characters of the placeholder string that CDK hands out
    are not modelled, so equality of tokens says nothing about equality of
    those strings. *)
Inductive Token : Type :=
| ServiceTokenOf (provider : Path)
| GetAtt (resource : Path) (attributeName : string).

Record EcsDeploymentProviderProps : Type := {
  provider_deploymentGroup : IEcsDeploymentGroup;
  provider_timeout : Duration
}.

Record EcsDeploymentProvider : Type := {
  provider_node : Path;
  provider_props : EcsDeploymentProviderProps
}.

Definition serviceToken (p : EcsDeploymentProvider) : Token :=
  ServiceTokenOf (provider_node p).

Record CustomResourceProps : Type := {
  cr_serviceToken : Token;
  cr_resourceType : string;
  cr_properties : Js.object
}.

Record CustomResource : Type := {
  resource_node : Path;
  resource_props : CustomResourceProps
}.

Definition getAttString (r : CustomResource) (attributeName : string) : Token :=
  GetAtt (resource_node r) attributeName.

(** What construction can observe and change: the paths present in the
    construct tree, the providers created and the custom resources
    registered, both in creation order. *)
Record World : Type := {
  tree : list Path;
  providers : list EcsDeploymentProvider;
  resources : list CustomResource
}.

Definition emptyWorld : World :=
  {| tree := []; providers := []; resources := [] |}.

(** The error thrown when a scope already has a child of that name. *)
Inductive Error : Type :=
| DuplicateChild (scope : Path) (id : string).

(** State and exceptions: a computation returns a value or throws, and in
    both cases leaves the world as it was at that point. *)
Definition M (A : Type) : Type := World -> (Error + A) * World.

Definition ret {A : Type} (a : A) : M A := fun w => (inr a, w).

Definition throw {A : Type} (e : Error) : M A := fun w => (inl e, w).

Definition bind {A B : Type} (m : M A) (k : A -> M B) : M B :=
  fun w =>
    match m w with
    | (inl e, w') => (inl e, w')
    | (inr a, w') => k a w'
    end.

Notation "x <- m ;; k" := (bind m (fun x => k))
  (at level 61, m at next level, right associativity).

Definition hasPath (w : World) (p : Path) : bool :=
  if in_dec Path_eq_dec p (tree w) then true else false.

(** Modelled from the spec: the [Construct] base class belongs to the
    [constructs] framework, outside the sources at hand.  The spec gives its
    contract: a second child with the same identity name under one parent
    "collides on a fixed identity name, causing the surrounding framework to
    reject it as a duplicate".  [super(scope, id)] adds the child's path to
    the tree or throws.  Only the duplicate check is modelled: the id is
    taken as the framework stores it, that is, non-empty and without the path
    separator '/', which the framework rejects and rewrites respectively. *)
Definition Construct_new (scope : Path) (id : string) : M Path :=
  fun w =>
    let path := (scope ++ [id])%list in
    if hasPath w path then (inl (DuplicateChild scope id), w)
    else (inr path,
          {| tree := path :: tree w;
             providers := providers w;
             resources := resources w |}).

(** Modelled from the spec: [EcsDeploymentProvider] lives in
    [../ecs-deployment-provider], outside the sources at hand.  The spec
    gives its contract: "given a deployment-group reference and a timeout,
    returns a provider instance exposing a serviceToken".  It is a construct
    created under [scope]; what it provisions below itself is not modelled. *)
Definition EcsDeploymentProvider_new (scope : Path) (id : string)
    (props : EcsDeploymentProviderProps) : M EcsDeploymentProvider :=
  node <- Construct_new scope id ;;
  fun w =>
    let p := {| provider_node := node; provider_props := props |} in
    (inr p,
     {| tree := tree w;
        providers := (providers w ++ [p])%list;
        resources := resources w |}).

(** [new cdk.CustomResource(scope, id, props)]: a construct under [scope]
    that records the service token, the resource type and the properties.
    The children the resource creates below itself and its need of an
    enclosing stack are not modelled. *)
Definition CustomResource_new (scope : Path) (id : string)
    (props : CustomResourceProps) : M CustomResource :=
  node <- Construct_new scope id ;;
  fun w =>
    let r := {| resource_node := node; resource_props := props |} in
    (inr r,
     {| tree := tree w;
        providers := providers w;
        resources := (resources w ++ [r])%list |}).

(** ** The class [EcsDeployment] (lines 54-102) *)

Record EcsDeployment : Type := {
  node : Path;
  deploymentId : Token
}.

(** The protected constructor (lines 67-100). *)
Definition EcsDeployment_new (scope : Path) (id : string)
    (props : EcsDeploymentProps) : M EcsDeployment :=
  this <- Construct_new scope id ;;
  ecsDeploymentProvider <-
    EcsDeploymentProvider_new this "DeploymentProvider"
      {| provider_deploymentGroup := deploymentGroup props;
         provider_timeout :=
           Js.or (timeout props) (DurationStatics.minutes 30) |} ;;
  deployment <-
    CustomResource_new this "DeploymentResource"
      {| cr_serviceToken := serviceToken ecsDeploymentProvider;
         cr_resourceType := "Custom::EcsDeployment";
         cr_properties := requestProperties props |} ;;
  ret {| node := this;
         deploymentId := getAttString deployment "deploymentId" |}.

(** The static factory (lines 58-60). *)
Definition forDeploymentGroup (props : EcsDeploymentProps) : M EcsDeployment :=
  EcsDeployment_new (dg_node (deploymentGroup props)) "Deployment" props.

(** ** The mapping as the specification words it *)

(** One token per boolean that is true, in the order alarm, failure,
    stopped. *)
Definition specTokens (alarm failure stopped : bool) : list string :=
  ((if alarm then ["DEPLOYMENT_STOP_ON_ALARM"] else []) ++
   (if failure then ["DEPLOYMENT_FAILURE"] else []) ++
   (if stopped then ["DEPLOYMENT_STOP_ON_REQUEST"] else []))%list.

(** A rollback configuration with the three booleans given. *)
Definition rollbackOf (alarm failure stopped : bool) : AutoRollbackConfig :=
  {| deploymentInAlarm := Some alarm;
     failedDeployment := Some failure;
     stoppedDeployment := Some stopped |}.


(** [props] with its [autoRollback] replaced. *)
Definition withAutoRollback (props : EcsDeploymentProps)
    (r : option AutoRollbackConfig) : EcsDeploymentProps :=
  {| deploymentGroup := deploymentGroup props;
     appspec := appspec props;
     autoRollback := r;
     description := description props;
     timeout := timeout props |}.

(** Whether a character occurs in a string. *)
Fixpoint occurs (c : ascii) (s : string) : bool :=
  match s with
  | EmptyString => false
  | String c' rest => Ascii.eqb c' c || occurs c rest
  end.


(** The seven key names of the request, in the order of the literal. *)
Definition requestKeys : list string :=
  [ "applicationName"; "deploymentConfigName"; "deploymentGroupName";
    "autoRollbackConfigurationEnabled"; "autoRollbackConfigurationEvents";
    "description"; "revisionAppSpecContent" ].

(** Sample inputs. *)
Definition sampleGroup : IEcsDeploymentGroup :=
  {| dg_node := ["Stack"; "Group"];
     application := {| applicationName := "app1" |};
     deploymentConfig := {| deploymentConfigName := "cfg1" |};
     deploymentGroupName := "grp1" |}.

Definition sampleProps : EcsDeploymentProps :=
  {| deploymentGroup := sampleGroup;
     appspec := {| toString := "spec-content" |};
     autoRollback := None;
     description := None;
     timeout := None |}.

Definition describedProps : EcsDeploymentProps :=
  {| deploymentGroup := sampleGroup;
     appspec := {| toString := "spec-content" |};
     autoRollback := Some (rollbackOf true false true);
     description := Some "blue/green";
     timeout := Some (mkDuration 45 Seconds) |}.

(** A second group with the same three names at another place in the tree. *)
Definition sampleGroupElsewhere : IEcsDeploymentGroup :=
  {| dg_node := ["OtherStack"; "Group"];
     application := {| applicationName := "app1" |};
     deploymentConfig := {| deploymentConfigName := "cfg1" |};
     deploymentGroupName := "grp1" |}.

Definition elsewhereProps : EcsDeploymentProps :=
  {| deploymentGroup := sampleGroupElsewhere;
     appspec := {| toString := "spec-content" |};
     autoRollback := None;
     description := None;
     timeout := None |}.

(** A world in which some unrelated construct already exists. *)
Definition busyWorld : World :=
  {| tree := [["OtherStack"; "Group"]; ["OtherStack"]];
     providers := [];
     resources := [] |}.

(** The path of the deployment construct of [props], and what the
    constructor creates below it. *)
Definition deploymentPath (props : EcsDeploymentProps) : Path :=
  (dg_node (deploymentGroup props) ++ ["Deployment"])%list.

Definition providerOf (props : EcsDeploymentProps) : EcsDeploymentProvider :=
  {| provider_node := (deploymentPath props ++ ["DeploymentProvider"])%list;
     provider_props :=
       {| provider_deploymentGroup := deploymentGroup props;
          provider_timeout :=
            match timeout props with
            | Some t => t
            | None => mkDuration 30 Minutes
            end |} |}.

Definition resourceOf (props : EcsDeploymentProps) : CustomResource :=
  {| resource_node := (deploymentPath props ++ ["DeploymentResource"])%list;
     resource_props :=
       {| cr_serviceToken :=
            ServiceTokenOf (deploymentPath props ++ ["DeploymentProvider"])%list;
          cr_resourceType := "Custom::EcsDeployment";
          cr_properties := requestProperties props |} |}.

(** The truthiness of the three rollback booleans of [props]. *)
Definition truthTriple (props : EcsDeploymentProps) : bool * bool * bool :=
  (Js.truthy (optChain (autoRollback props) deploymentInAlarm),
   Js.truthy (optChain (autoRollback props) failedDeployment),
   Js.truthy (optChain (autoRollback props) stoppedDeployment)).

(** What the protected constructor creates for a deployment at [this]. *)
Definition providerAt (this : Path) (props : EcsDeploymentProps)
    : EcsDeploymentProvider :=
  {| provider_node := (this ++ ["DeploymentProvider"])%list;
     provider_props :=
       {| provider_deploymentGroup := deploymentGroup props;
          provider_timeout :=
            Js.or (timeout props) (DurationStatics.minutes 30) |} |}.

Definition resourceAt (this : Path) (props : EcsDeploymentProps)
    : CustomResource :=
  {| resource_node := (this ++ ["DeploymentResource"])%list;
     resource_props :=
       {| cr_serviceToken := ServiceTokenOf (this ++ ["DeploymentProvider"])%list;
          cr_resourceType := "Custom::EcsDeployment";
          cr_properties := requestProperties props |} |}.

Definition deploymentAt (this : Path) : EcsDeployment :=
  {| node := this;
     deploymentId := GetAtt (this ++ ["DeploymentResource"])%list "deploymentId" |}.

(** The world after a construction at [this] that ran to its end. *)
Definition builtWorld (this : Path) (props : EcsDeploymentProps) (w : World)
    : World :=
  {| tree := (this ++ ["DeploymentResource"])%list
               :: (this ++ ["DeploymentProvider"])%list :: this :: tree w;
     providers := (providers w ++ [providerAt this props])%list;
     resources := (resources w ++ [resourceAt this props])%list |}.

(** A construct tree as the framework builds it: a construct below the top
    level has its parent in the tree. *)
Definition closedTree (w : World) : Prop :=
  forall p : Path,
    In p (tree w) -> (1 < length p)%nat -> In (removelast p) (tree w).

(** A world in which the two sample groups exist. *)
Definition groupsWorld : World :=
  {| tree := [["OtherStack"; "Group"]; ["OtherStack"];
              ["Stack"; "Group"]; ["Stack"]];
     providers := [];
     resources := [] |}.

(** The request as §4.1 step 4 of the specification words it: the three
    names, the stringified flag that some trigger is configured, the joined
    tokens, the description passed through and the AppSpec content. *)
Definition specRequest (app config group : string)
    (alarm failure stopped : bool) (desc : option string) (content : string)
    : Js.object :=
  [ ("applicationName", Js.str app);
    ("deploymentConfigName", Js.str config);
    ("deploymentGroupName", Js.str group);
    ("autoRollbackConfigurationEnabled",
      Js.str (if alarm || failure || stopped then "true" else "false"));
    ("autoRollbackConfigurationEvents",
      Js.str (Js.join "," (specTokens alarm failure stopped)));
    ("description", Js.of_option desc);
    ("revisionAppSpecContent", Js.str content) ].

(** A world in which the sample group already has a child named
    'Deployment' that is no deployment: nothing was provided or registered. *)
Definition occupiedWorld : World :=
  {| tree := [["Stack"; "Group"; "Deployment"];
              ["Stack"; "Group"]; ["Stack"]];
     providers := [];
     resources := [] |}.

Definition slash : ascii := "/"%char.

(** Case analysis on the truthiness of the three rollback booleans. *)
Ltac rollback_cases props :=
  destruct (Js.truthy (optChain (autoRollback props) deploymentInAlarm));
  destruct (Js.truthy (optChain (autoRollback props) failedDeployment));
  destruct (Js.truthy (optChain (autoRollback props) stoppedDeployment)).

(** * Properties of the derivation *)

Section Events.

Variable props : EcsDeploymentProps.

Let alarm := Js.truthy (optChain (autoRollback props) deploymentInAlarm).
Let failure := Js.truthy (optChain (autoRollback props) failedDeployment).
Let stopped := Js.truthy (optChain (autoRollback props) stoppedDeployment).

(** The three conditional pushes build the specification's sequence. *)
Lemma events_specTokens :
  autoRollbackConfigurationEvents props = specTokens alarm failure stopped.
Proof.
  unfold autoRollbackConfigurationEvents, specTokens, Js.push.
  subst alarm failure stopped.
  destruct (Js.truthy (optChain (autoRollback props) deploymentInAlarm));
    destruct (Js.truthy (optChain (autoRollback props) failedDeployment));
    destruct (Js.truthy (optChain (autoRollback props) stoppedDeployment));
    reflexivity.
Qed.


Lemma events_nil_iff :
  autoRollbackConfigurationEvents props = [] <->
  alarm = false /\ failure = false /\ stopped = false.
Proof.
  rewrite events_specTokens. unfold specTokens.
  destruct alarm, failure, stopped; simpl; split;
    try discriminate; try tauto;
    intros (Ha & Hf & Hs); discriminate.
Qed.

Lemma get_enabled :
  Js.get (requestProperties props) "autoRollbackConfigurationEnabled" =
  Js.str (Js.Boolean_toString
            (0 <? length (autoRollbackConfigurationEvents props))%nat).
Proof. reflexivity. Qed.

Lemma get_events :
  Js.get (requestProperties props) "autoRollbackConfigurationEvents" =
  Js.str (Js.join "," (autoRollbackConfigurationEvents props)).
Proof. reflexivity. Qed.

End Events.

(** C1: for the eight combinations of the three rollback booleans, the
    events string of the request is the comma-join of the tokens of the
    booleans that are true, in the order alarm, failure, stopped; alarm and
    stopped alone give
    "DEPLOYMENT_STOP_ON_ALARM,DEPLOYMENT_STOP_ON_REQUEST". *)
Theorem C1_events_string :
  (forall (props : EcsDeploymentProps) (alarm failure stopped : bool),
      autoRollback props = Some (rollbackOf alarm failure stopped) ->
      Js.get (requestProperties props) "autoRollbackConfigurationEvents" =
      Js.str (Js.join "," (specTokens alarm failure stopped))) /\
  (forall props : EcsDeploymentProps,
      autoRollback props = Some (rollbackOf true false true) ->
      Js.get (requestProperties props) "autoRollbackConfigurationEvents" =
      Js.str "DEPLOYMENT_STOP_ON_ALARM,DEPLOYMENT_STOP_ON_REQUEST").
Proof.
  assert (H : forall props alarm failure stopped,
             autoRollback props = Some (rollbackOf alarm failure stopped) ->
             Js.get (requestProperties props) "autoRollbackConfigurationEvents" =
             Js.str (Js.join "," (specTokens alarm failure stopped))).
  { intros props alarm failure stopped Hr.
    rewrite get_events, events_specTokens, Hr.
    destruct alarm, failure, stopped; reflexivity. }
  split; [exact H|].
  intros props Hr. now rewrite (H props true false true Hr).
Qed.

Lemma C1_events_string_witness :
  autoRollback describedProps = Some (rollbackOf true false true) /\
  Js.get (requestProperties describedProps) "autoRollbackConfigurationEvents" =
  Js.str "DEPLOYMENT_STOP_ON_ALARM,DEPLOYMENT_STOP_ON_REQUEST".
Proof.
  split; [reflexivity|].
  apply (proj2 C1_events_string describedProps). reflexivity.
Defined.

(** C2: the value of [autoRollbackConfigurationEnabled] is "true" exactly
    when the derived event sequence is non-empty, which is exactly when one
    of the three rollback booleans is true, and "false" otherwise. *)
Theorem C2_enabled_iff_nonempty (props : EcsDeploymentProps) :
  let enabled :=
    Js.get (requestProperties props) "autoRollbackConfigurationEnabled" in
  (enabled = Js.str "true" <-> autoRollbackConfigurationEvents props <> []) /\
  (enabled = Js.str "false" <-> autoRollbackConfigurationEvents props = []) /\
  (autoRollbackConfigurationEvents props <> [] <->
   optChain (autoRollback props) deploymentInAlarm = Some true \/
   optChain (autoRollback props) failedDeployment = Some true \/
   optChain (autoRollback props) stoppedDeployment = Some true).
Proof.
  cbv zeta. rewrite get_enabled.
  split; [|split].
  - destruct (autoRollbackConfigurationEvents props) as [|e es]; simpl.
    + split; [discriminate | congruence].
    + split; [discriminate | reflexivity].
  - destruct (autoRollbackConfigurationEvents props) as [|e es]; simpl.
    + split; reflexivity.
    + split; discriminate.
  - rewrite events_nil_iff.
    destruct (optChain (autoRollback props) deploymentInAlarm) as [[|]|];
      destruct (optChain (autoRollback props) failedDeployment) as [[|]|];
      destruct (optChain (autoRollback props) stoppedDeployment) as [[|]|];
      simpl; split; intros H;
      solve [ auto
            | exfalso; apply H; auto
            | intros (Ha & Hf & Hs); discriminate
            | destruct H as [H | [H | H]]; discriminate ].
Qed.

(** C6: a request built without [autoRollback] equals the one built with
    all three rollback booleans false; in both the events string is empty
    and the enabled flag is "false". *)
Theorem C6_absent_rollback_is_all_false (props : EcsDeploymentProps) :
  let absent := withAutoRollback props None in
  let allFalse := withAutoRollback props (Some (rollbackOf false false false)) in
  requestProperties absent = requestProperties allFalse /\
  Js.get (requestProperties absent) "autoRollbackConfigurationEvents" = Js.str "" /\
  Js.get (requestProperties absent) "autoRollbackConfigurationEnabled" = Js.str "false" /\
  Js.get (requestProperties allFalse) "autoRollbackConfigurationEvents" = Js.str "" /\
  Js.get (requestProperties allFalse) "autoRollbackConfigurationEnabled" = Js.str "false".
Proof.
  cbv zeta. repeat split.
Qed.

(** ** Splitting the joined string *)

Section SplitJoin.

Variable sep : ascii.


Lemma split_not_nil (s : string) : Js.split sep s <> [].
Proof.
  destruct s as [|c rest]; simpl; [discriminate|].
  destruct (Ascii.eqb c sep); [discriminate|].
  destruct (Js.split sep rest); discriminate.
Qed.




End SplitJoin.




(** * Properties of construction *)

Section Construction.

Variable props : EcsDeploymentProps.

Let scope := dg_node (deploymentGroup props).
Let this := deploymentPath props.

(** What a successful construction returns and leaves behind. *)
Lemma forDeploymentGroup_inv (w w' : World) (d : EcsDeployment) :
  forDeploymentGroup props w = (inr d, w') ->
  hasPath w this = false /\
  d = {| node := this;
         deploymentId := GetAtt (resource_node (resourceOf props)) "deploymentId" |} /\
  tree w' = resource_node (resourceOf props)
              :: provider_node (providerOf props) :: this :: tree w /\
  providers w' = (providers w ++ [providerOf props])%list /\
  resources w' = (resources w ++ [resourceOf props])%list.
Proof.
  subst this.
  unfold forDeploymentGroup, EcsDeployment_new, EcsDeploymentProvider_new,
    CustomResource_new, Construct_new, bind, ret, deploymentPath.
  repeat
    match goal with
    | |- context [if hasPath ?v ?p then _ else _] =>
        destruct (hasPath v p) eqn:?; cbv beta iota zeta; [discriminate|]
    end.
  cbn [tree providers resources].
  intros H. injection H as <- <-.
  repeat split; reflexivity.
Qed.

(** The constructor throws, and changes nothing, when the deployment
    group already has a child named 'Deployment'. *)
Lemma forDeploymentGroup_duplicate (w : World) :
  hasPath w this = true ->
  forDeploymentGroup props w = (inl (DuplicateChild scope "Deployment"), w).
Proof.
  subst this scope.
  unfold forDeploymentGroup, EcsDeployment_new, Construct_new, bind,
    deploymentPath.
  intros ->. reflexivity.
Qed.

End Construction.

Lemma hasPath_true (w : World) (p : Path) :
  hasPath w p = true <-> In p (tree w).
Proof.
  unfold hasPath. destruct (in_dec Path_eq_dec p (tree w)); split;
    auto; discriminate.
Qed.

Lemma hasPath_false (w : World) (p : Path) :
  hasPath w p = false <-> ~ In p (tree w).
Proof.
  unfold hasPath. destruct (in_dec Path_eq_dec p (tree w)); split;
    auto; try discriminate. intros H. contradiction.
Qed.

Lemma child_neq_self (p : Path) (id : string) : (p ++ [id])%list <> p.
Proof.
  intros H. apply (f_equal (@length string)) in H.
  rewrite length_app in H. simpl in H. lia.
Qed.

(** Construction succeeds when the three paths it creates are free. *)
Lemma forDeploymentGroup_succeeds (props : EcsDeploymentProps) (w : World) :
  hasPath w (deploymentPath props) = false ->
  hasPath w (provider_node (providerOf props)) = false ->
  hasPath w (resource_node (resourceOf props)) = false ->
  exists (d : EcsDeployment) (w' : World),
    forDeploymentGroup props w = (inr d, w').
Proof.
  intros Hthis Hprov Hres.
  unfold forDeploymentGroup, EcsDeployment_new, EcsDeploymentProvider_new,
    CustomResource_new, Construct_new, bind, ret.
  fold (deploymentPath props). rewrite Hthis.
  match goal with
  | |- context [if hasPath ?v ?p then _ else _] =>
      assert (H1 : hasPath v p = false)
  end.
  { apply hasPath_false. cbn [tree]. intros [H | H].
    - symmetry in H. exact (child_neq_self _ _ H).
    - apply hasPath_false in Hprov. exact (Hprov H). }
  rewrite H1. cbv beta iota zeta. cbn [tree providers resources].
  match goal with
  | |- context [if hasPath ?v ?p then _ else _] =>
      assert (H2 : hasPath v p = false)
  end.
  { apply hasPath_false. cbn [tree]. intros [H | [H | H]].
    - apply app_inv_head in H. discriminate.
    - symmetry in H. exact (child_neq_self _ _ H).
    - apply hasPath_false in Hres. exact (Hres H). }
  rewrite H2. cbv beta iota zeta. eauto.
Qed.




(** C4: for the group app1/cfg1/grp1, AppSpec content "spec-content", no
    rollback configuration, no description and no timeout, the property bag
    is the one the specification lists, and it is the bag of the custom
    resource that construction registers. *)
Theorem C4_sample_bag (props : EcsDeploymentProps) :
  applicationName (application (deploymentGroup props)) = "app1" ->
  deploymentConfigName (deploymentConfig (deploymentGroup props)) = "cfg1" ->
  deploymentGroupName (deploymentGroup props) = "grp1" ->
  toString (appspec props) = "spec-content" ->
  autoRollback props = None ->
  description props = None ->
  timeout props = None ->
  let bag :=
    [ ("applicationName", Js.str "app1");
      ("deploymentConfigName", Js.str "cfg1");
      ("deploymentGroupName", Js.str "grp1");
      ("autoRollbackConfigurationEnabled", Js.str "false");
      ("autoRollbackConfigurationEvents", Js.str "");
      ("description", Js.undefined);
      ("revisionAppSpecContent", Js.str "spec-content") ] in
  requestProperties props = bag /\
  forall (w w' : World) (d : EcsDeployment),
    forDeploymentGroup props w = (inr d, w') ->
    exists res : CustomResource,
      resources w' = (resources w ++ [res])%list /\
      cr_properties (resource_props res) = bag.
Proof.
  intros Happ Hcfg Hgrp Hspec Hroll Hdesc _. cbv zeta.
  assert (Hbag : requestProperties props =
    [ ("applicationName", Js.str "app1");
      ("deploymentConfigName", Js.str "cfg1");
      ("deploymentGroupName", Js.str "grp1");
      ("autoRollbackConfigurationEnabled", Js.str "false");
      ("autoRollbackConfigurationEvents", Js.str "");
      ("description", Js.undefined);
      ("revisionAppSpecContent", Js.str "spec-content") ]).
  { unfold requestProperties, autoRollbackConfigurationEvents.
    rewrite Happ, Hcfg, Hgrp, Hspec, Hroll, Hdesc. reflexivity. }
  split; [exact Hbag|].
  intros w w' d Hrun.
  destruct (forDeploymentGroup_inv props w w' d Hrun)
    as (_ & _ & _ & _ & Hres).
  exists (resourceOf props). split; [exact Hres | exact Hbag].
Qed.

Lemma C4_sample_bag_witness :
  requestProperties sampleProps =
  [ ("applicationName", Js.str "app1");
    ("deploymentConfigName", Js.str "cfg1");
    ("deploymentGroupName", Js.str "grp1");
    ("autoRollbackConfigurationEnabled", Js.str "false");
    ("autoRollbackConfigurationEvents", Js.str "");
    ("description", Js.undefined);
    ("revisionAppSpecContent", Js.str "spec-content") ].
Proof.
  exact (proj1 (C4_sample_bag sampleProps eq_refl eq_refl eq_refl eq_refl
                  eq_refl eq_refl eq_refl)).
Defined.

(** C5: the provider is created with a timeout of 30 minutes when the
    [timeout] property is absent, and with the supplied duration, whatever
    it is, when the property is present. *)
Theorem C5_timeout_forwarded
    (props : EcsDeploymentProps) (w w' : World) (d : EcsDeployment) :
  forDeploymentGroup props w = (inr d, w') ->
  exists prov : EcsDeploymentProvider,
    providers w' = (providers w ++ [prov])%list /\
    (timeout props = None ->
     provider_timeout (provider_props prov) = DurationStatics.minutes 30) /\
    (forall t : Duration,
        timeout props = Some t ->
        provider_timeout (provider_props prov) = t).
Proof.
  intros Hrun.
  destruct (forDeploymentGroup_inv props w w' d Hrun)
    as (_ & _ & _ & Hprov & _).
  exists (providerOf props). split; [exact Hprov|].
  unfold providerOf; cbn [provider_props provider_timeout].
  split.
  - intros ->. reflexivity.
  - intros t ->. reflexivity.
Qed.

Lemma C5_timeout_forwarded_witness :
  (exists prov : EcsDeploymentProvider,
      providers (snd (forDeploymentGroup sampleProps emptyWorld)) = [prov] /\
      provider_timeout (provider_props prov) = mkDuration 30 Minutes) /\
  (exists prov : EcsDeploymentProvider,
      providers (snd (forDeploymentGroup describedProps emptyWorld)) = [prov] /\
      provider_timeout (provider_props prov) = mkDuration 45 Seconds).
Proof.
  split.
  - destruct (C5_timeout_forwarded sampleProps emptyWorld _ _ eq_refl)
      as (prov & Hprov & Hnone & _).
    exists prov. split; [exact Hprov | exact (Hnone eq_refl)].
  - destruct (C5_timeout_forwarded describedProps emptyWorld _ _ eq_refl)
      as (prov & Hprov & _ & Hsome).
    exists prov. split; [exact Hprov | exact (Hsome _ eq_refl)].
Defined.

(** C7: once a deployment has been constructed for a deployment group, a
    second construction for the same group, in that world or any later one,
    throws the duplicate-child error for the identifier 'Deployment' under
    the group and leaves the world untouched: no provider is created and no
    resource is registered. *)
Theorem C7_second_construction_collides
    (first second : EcsDeploymentProps) (w w1 w2 : World) (d : EcsDeployment) :
  deploymentGroup second = deploymentGroup first ->
  forDeploymentGroup first w = (inr d, w1) ->
  incl (tree w1) (tree w2) ->
  forDeploymentGroup second w2 =
    (inl (DuplicateChild (dg_node (deploymentGroup first)) "Deployment"), w2) /\
  providers (snd (forDeploymentGroup second w2)) = providers w2 /\
  resources (snd (forDeploymentGroup second w2)) = resources w2.
Proof.
  intros Hsame Hrun Hlater.
  destruct (forDeploymentGroup_inv first w w1 d Hrun)
    as (_ & _ & Htree & _ & _).
  assert (Hdup : forDeploymentGroup second w2 =
    (inl (DuplicateChild (dg_node (deploymentGroup first)) "Deployment"), w2)).
  { rewrite <- Hsame. apply forDeploymentGroup_duplicate.
    apply hasPath_true, Hlater. rewrite Htree.
    unfold deploymentPath. rewrite Hsame. right; right; left. reflexivity. }
  rewrite Hdup. repeat split.
Qed.

Lemma C7_second_construction_collides_witness :
  let w1 := snd (forDeploymentGroup sampleProps emptyWorld) in
  forDeploymentGroup describedProps w1 =
    (inl (DuplicateChild ["Stack"; "Group"] "Deployment"), w1) /\
  providers (snd (forDeploymentGroup describedProps w1)) = providers w1 /\
  resources (snd (forDeploymentGroup describedProps w1)) = resources w1.
Proof.
  exact (C7_second_construction_collides sampleProps describedProps
           emptyWorld _ _ _ eq_refl eq_refl (incl_refl _)).
Defined.

(** C8: a successful construction registers exactly one custom resource; its
    type is 'Custom::EcsDeployment', its service token is that of the one
    provider created, which sits under the deployment construct itself, and
    the [deploymentId] of the deployment is the 'deploymentId' attribute of
    that resource. *)
Theorem C8_one_resource_registered
    (props : EcsDeploymentProps) (w w' : World) (d : EcsDeployment) :
  forDeploymentGroup props w = (inr d, w') ->
  exists (prov : EcsDeploymentProvider) (res : CustomResource),
    providers w' = (providers w ++ [prov])%list /\
    resources w' = (resources w ++ [res])%list /\
    length (resources w') = S (length (resources w)) /\
    node d = (dg_node (deploymentGroup props) ++ ["Deployment"])%list /\
    provider_node prov = (node d ++ ["DeploymentProvider"])%list /\
    resource_node res = (node d ++ ["DeploymentResource"])%list /\
    cr_resourceType (resource_props res) = "Custom::EcsDeployment" /\
    cr_serviceToken (resource_props res) = serviceToken prov /\
    deploymentId d = getAttString res "deploymentId".
Proof.
  intros Hrun.
  destruct (forDeploymentGroup_inv props w w' d Hrun)
    as (_ & -> & _ & Hprov & Hres).
  exists (providerOf props), (resourceOf props).
  split; [exact Hprov|]. split; [exact Hres|].
  split; [rewrite Hres, length_app; simpl; lia|].
  repeat split.
Qed.

Lemma C8_one_resource_registered_witness :
  exists (prov : EcsDeploymentProvider) (res : CustomResource),
    providers (snd (forDeploymentGroup describedProps busyWorld)) = [prov] /\
    resources (snd (forDeploymentGroup describedProps busyWorld)) = [res] /\
    cr_resourceType (resource_props res) = "Custom::EcsDeployment" /\
    cr_serviceToken (resource_props res) = serviceToken prov /\
    fst (forDeploymentGroup describedProps busyWorld) =
      inr {| node := ["Stack"; "Group"; "Deployment"];
             deploymentId := getAttString res "deploymentId" |}.
Proof.
  destruct (C8_one_resource_registered describedProps busyWorld _ _ eq_refl)
    as (prov & res & Hp & Hr & _ & _ & _ & Hn & Hty & Htok & _).
  exists prov, res. repeat split; try assumption.
  injection Hr as <-. reflexivity.
Defined.

(** C9: two constructions whose deployment groups carry the same three
    names and whose AppSpec string, rollback configuration, description and
    timeout agree register custom resources with identical property bags,
    whatever the worlds they run in and wherever the groups sit: each bag is
    the request of the specification computed from those inputs alone, all
    seven values, the joined events string and the enabled flag included. *)
Theorem C9_bag_deterministic
    (p1 p2 : EcsDeploymentProps) (w1 w1' w2 w2' : World)
    (d1 d2 : EcsDeployment) :
  applicationName (application (deploymentGroup p1)) =
    applicationName (application (deploymentGroup p2)) ->
  deploymentConfigName (deploymentConfig (deploymentGroup p1)) =
    deploymentConfigName (deploymentConfig (deploymentGroup p2)) ->
  deploymentGroupName (deploymentGroup p1) =
    deploymentGroupName (deploymentGroup p2) ->
  toString (appspec p1) = toString (appspec p2) ->
  autoRollback p1 = autoRollback p2 ->
  description p1 = description p2 ->
  timeout p1 = timeout p2 ->
  forDeploymentGroup p1 w1 = (inr d1, w1') ->
  forDeploymentGroup p2 w2 = (inr d2, w2') ->
  let expected :=
    specRequest
      (applicationName (application (deploymentGroup p1)))
      (deploymentConfigName (deploymentConfig (deploymentGroup p1)))
      (deploymentGroupName (deploymentGroup p1))
      (Js.truthy (optChain (autoRollback p1) deploymentInAlarm))
      (Js.truthy (optChain (autoRollback p1) failedDeployment))
      (Js.truthy (optChain (autoRollback p1) stoppedDeployment))
      (description p1)
      (toString (appspec p1)) in
  exists r1 r2 : CustomResource,
    resources w1' = (resources w1 ++ [r1])%list /\
    resources w2' = (resources w2 ++ [r2])%list /\
    cr_properties (resource_props r1) = expected /\
    cr_properties (resource_props r2) = expected /\
    cr_properties (resource_props r1) = cr_properties (resource_props r2).
Proof.
  intros Happ Hcfg Hgrp Hspec Hroll Hdesc _ Hrun1 Hrun2. cbv zeta.
  destruct (forDeploymentGroup_inv p1 w1 w1' d1 Hrun1)
    as (_ & _ & _ & _ & Hres1).
  destruct (forDeploymentGroup_inv p2 w2 w2' d2 Hrun2)
    as (_ & _ & _ & _ & Hres2).
  assert (Hbag : forall p : EcsDeploymentProps,
    requestProperties p =
    specRequest
      (applicationName (application (deploymentGroup p)))
      (deploymentConfigName (deploymentConfig (deploymentGroup p)))
      (deploymentGroupName (deploymentGroup p))
      (Js.truthy (optChain (autoRollback p) deploymentInAlarm))
      (Js.truthy (optChain (autoRollback p) failedDeployment))
      (Js.truthy (optChain (autoRollback p) stoppedDeployment))
      (description p)
      (toString (appspec p))).
  { intros p. unfold requestProperties, specRequest.
    rewrite events_specTokens. rollback_cases p; reflexivity. }
  exists (resourceOf p1), (resourceOf p2).
  split; [exact Hres1|]. split; [exact Hres2|].
  cbn [resourceOf resource_props cr_properties].
  split; [apply Hbag|].
  assert (H2 : requestProperties p2 =
    specRequest
      (applicationName (application (deploymentGroup p1)))
      (deploymentConfigName (deploymentConfig (deploymentGroup p1)))
      (deploymentGroupName (deploymentGroup p1))
      (Js.truthy (optChain (autoRollback p1) deploymentInAlarm))
      (Js.truthy (optChain (autoRollback p1) failedDeployment))
      (Js.truthy (optChain (autoRollback p1) stoppedDeployment))
      (description p1)
      (toString (appspec p1))).
  { rewrite (Hbag p2), Happ, Hcfg, Hgrp, Hspec, Hroll, Hdesc. reflexivity. }
  split; [exact H2|]. rewrite H2. apply Hbag.
Qed.

Lemma C9_bag_deterministic_witness :
  exists r1 r2 : CustomResource,
    resources (snd (forDeploymentGroup sampleProps emptyWorld)) = [r1] /\
    resources (snd (forDeploymentGroup elsewhereProps busyWorld)) = [r2] /\
    cr_properties (resource_props r1) =
      specRequest "app1" "cfg1" "grp1" false false false None "spec-content" /\
    cr_properties (resource_props r2) =
      specRequest "app1" "cfg1" "grp1" false false false None "spec-content" /\
    cr_properties (resource_props r1) = cr_properties (resource_props r2).
Proof.
  exact (C9_bag_deterministic sampleProps elsewhereProps
           emptyWorld _ busyWorld _ _ _
           eq_refl eq_refl eq_refl eq_refl eq_refl eq_refl eq_refl
           eq_refl eq_refl).
Defined.

(** * Further properties of the derivation *)

Lemma truthy_true (b : option bool) : Js.truthy b = true <-> b = Some true.
Proof.
  destruct b as [[|]|]; simpl; split; congruence.
Qed.

(** X1: a token is among the derived events exactly when its rollback
    boolean is true; the events are pairwise different, at most three, and
    nothing but the three tokens ever appears. *)
Theorem events_membership (props : EcsDeploymentProps) :
  let events := autoRollbackConfigurationEvents props in
  (In "DEPLOYMENT_STOP_ON_ALARM" events <->
   optChain (autoRollback props) deploymentInAlarm = Some true) /\
  (In "DEPLOYMENT_FAILURE" events <->
   optChain (autoRollback props) failedDeployment = Some true) /\
  (In "DEPLOYMENT_STOP_ON_REQUEST" events <->
   optChain (autoRollback props) stoppedDeployment = Some true) /\
  NoDup events /\
  (length events <= 3)%nat /\
  (forall t : string,
      In t events ->
      t = "DEPLOYMENT_STOP_ON_ALARM" \/ t = "DEPLOYMENT_FAILURE" \/
      t = "DEPLOYMENT_STOP_ON_REQUEST").
Proof.
  cbv zeta. rewrite events_specTokens, <- !truthy_true.
  rollback_cases props; simpl;
    (repeat split;
     try solve [ intuition (discriminate || congruence)
               | lia
               | repeat constructor; simpl; intuition discriminate
               | intros t H; intuition (subst t; tauto) ]).
Qed.

(** X2: the events string of the request determines the truthiness of the
    three rollback booleans: two requests carry the same string exactly when
    the three booleans agree. *)
Theorem events_string_injective (p1 p2 : EcsDeploymentProps) :
  Js.get (requestProperties p1) "autoRollbackConfigurationEvents" =
  Js.get (requestProperties p2) "autoRollbackConfigurationEvents" <->
  truthTriple p1 = truthTriple p2.
Proof.
  rewrite !get_events, !events_specTokens. unfold truthTriple.
  rollback_cases p1; rollback_cases p2; simpl;
    split; intros H; first [reflexivity | discriminate H].
Qed.

(** X3: the two rollback entries of the request agree with each other: the
    enabled flag is "true" exactly when the events string is not empty. *)
Theorem enabled_iff_events_string (props : EcsDeploymentProps) :
  Js.get (requestProperties props) "autoRollbackConfigurationEnabled" =
    Js.str "true" <->
  Js.get (requestProperties props) "autoRollbackConfigurationEvents" <>
    Js.str "".
Proof.
  rewrite get_enabled, get_events, events_specTokens.
  rollback_cases props; simpl; split; intros H;
    first [reflexivity | discriminate | congruence].
Qed.

(** X4: the keys of the request are pairwise different, and the number of
    them that carry a value is seven when a description is given, the
    empty description included, and six when it is not. *)
Theorem defined_keys_count (props : EcsDeploymentProps) :
  NoDup (Js.keys (requestProperties props)) /\
  length (Js.definedKeys (requestProperties props)) =
    match description props with
    | Some _ => 7
    | None => 6
    end /\
  (In "description" (Js.definedKeys (requestProperties props)) <->
   description props <> None).
Proof.
  split; [|split].
  - change (Js.keys (requestProperties props)) with requestKeys.
    unfold requestKeys.
    repeat constructor; simpl; intuition discriminate.
  - unfold requestProperties, Js.definedKeys.
    destruct (description props); reflexivity.
  - unfold requestProperties, Js.definedKeys.
    destruct (description props); simpl; split; intros H;
      try discriminate; try tauto; try congruence.
    intuition discriminate.
Qed.

(** * Further properties of construction *)

Lemma hasPath_add (w w0 : World) (q p : Path) :
  tree w0 = q :: tree w -> q <> p -> hasPath w0 p = hasPath w p.
Proof.
  intros Htree Hneq. unfold hasPath. rewrite Htree.
  destruct (in_dec Path_eq_dec p (q :: tree w)) as [Hin | Hnin];
    destruct (in_dec Path_eq_dec p (tree w)) as [Hin' | Hnin'];
    try reflexivity.
  - destruct Hin as [Heq | Hin]; [contradiction | contradiction].
  - exfalso. apply Hnin. right. exact Hin'.
Qed.

Lemma sibling_neq (p : Path) (a b : string) :
  a <> b -> (p ++ [a])%list <> (p ++ [b])%list.
Proof.
  intros Hab H. apply app_inv_head in H. congruence.
Qed.

Section Run.

Variables (scope : Path) (id : string) (props : EcsDeploymentProps).

Let this : Path := (scope ++ [id])%list.

(** The outcome of the protected constructor, read off the world it starts
    in: it throws at the first of its three paths that is taken, and
    otherwise runs to its end. *)
Lemma EcsDeployment_new_run (w : World) :
  EcsDeployment_new scope id props w =
  if hasPath w this then (inl (DuplicateChild scope id), w)
  else if hasPath w (this ++ ["DeploymentProvider"])%list then
    (inl (DuplicateChild this "DeploymentProvider"),
     {| tree := this :: tree w;
        providers := providers w;
        resources := resources w |})
  else if hasPath w (this ++ ["DeploymentResource"])%list then
    (inl (DuplicateChild this "DeploymentResource"),
     {| tree := (this ++ ["DeploymentProvider"])%list :: this :: tree w;
        providers := (providers w ++ [providerAt this props])%list;
        resources := resources w |})
  else (inr (deploymentAt this), builtWorld this props w).
Proof.
  subst this.
  unfold EcsDeployment_new, EcsDeploymentProvider_new, CustomResource_new,
    Construct_new, bind, ret.
  destruct (hasPath w (scope ++ [id])%list) eqn:Hthis; [reflexivity|].
  set (w1 := {| tree := (scope ++ [id])%list :: tree w;
                providers := providers w;
                resources := resources w |}).
  assert (Hp : hasPath w1 ((scope ++ [id]) ++ ["DeploymentProvider"])%list =
               hasPath w ((scope ++ [id]) ++ ["DeploymentProvider"])%list).
  { apply hasPath_add with (q := (scope ++ [id])%list); [reflexivity|].
    intros H; symmetry in H; exact (child_neq_self _ _ H). }
  rewrite Hp.
  destruct (hasPath w ((scope ++ [id]) ++ ["DeploymentProvider"])%list)
    eqn:Hprov; [reflexivity|].
  cbv beta iota zeta. cbn [tree providers resources].
  match goal with
  | |- context [if hasPath ?v ?p then _ else _] => set (w2 := v)
  end.
  assert (Hr : hasPath w2 ((scope ++ [id]) ++ ["DeploymentResource"])%list =
               hasPath w ((scope ++ [id]) ++ ["DeploymentResource"])%list).
  { transitivity
      (hasPath w1 ((scope ++ [id]) ++ ["DeploymentResource"])%list).
    - apply hasPath_add
        with (q := ((scope ++ [id]) ++ ["DeploymentProvider"])%list);
        [reflexivity | apply sibling_neq; discriminate].
    - apply hasPath_add with (q := (scope ++ [id])%list); [reflexivity|].
      intros H; symmetry in H; exact (child_neq_self _ _ H). }
  rewrite Hr.
  destruct (hasPath w ((scope ++ [id]) ++ ["DeploymentResource"])%list);
    reflexivity.
Qed.

(** In a closed tree the children of an absent construct are absent. *)
Lemma closedTree_child_free (w : World) (child : string) :
  closedTree w -> hasPath w this = false ->
  hasPath w (this ++ [child])%list = false.
Proof.
  intros Hclosed Hfree. apply hasPath_false. intros Hin.
  apply hasPath_false in Hfree. apply Hfree.
  specialize (Hclosed _ Hin). rewrite removelast_last in Hclosed.
  apply Hclosed. subst this. rewrite !length_app. simpl. lia.
Qed.

Lemma EcsDeployment_new_closed_free (w : World) :
  closedTree w -> hasPath w this = false ->
  EcsDeployment_new scope id props w =
    (inr (deploymentAt this), builtWorld this props w).
Proof.
  intros Hclosed Hfree. rewrite EcsDeployment_new_run. fold this.
  rewrite Hfree, !(closedTree_child_free w _ Hclosed Hfree). reflexivity.
Qed.

Lemma EcsDeployment_new_taken (w : World) :
  hasPath w this = true ->
  EcsDeployment_new scope id props w = (inl (DuplicateChild scope id), w).
Proof.
  intros Htaken. rewrite EcsDeployment_new_run. fold this.
  rewrite Htaken. reflexivity.
Qed.

Lemma closedTree_built (w : World) :
  closedTree w -> scope = [] \/ In scope (tree w) ->
  closedTree (builtWorld this props w).
Proof.
  intros Hclosed Hscope p Hin Hlen.
  cbn [builtWorld tree] in *.
  destruct Hin as [<- | [<- | [<- | Hin]]].
  - rewrite removelast_last. right; right; left. reflexivity.
  - rewrite removelast_last. right; right; left. reflexivity.
  - subst this. rewrite removelast_last.
    destruct Hscope as [-> | Hscope]; [simpl in Hlen; lia|].
    right; right; right. exact Hscope.
  - right; right; right. apply Hclosed; assumption.
Qed.

Lemma NoDup_built (w : World) :
  closedTree w -> hasPath w this = false -> NoDup (tree w) ->
  NoDup (tree (builtWorld this props w)).
Proof.
  intros Hclosed Hfree Hnodup. cbn [builtWorld tree].
  pose proof (closedTree_child_free w "DeploymentProvider" Hclosed Hfree) as Hp.
  pose proof (closedTree_child_free w "DeploymentResource" Hclosed Hfree) as Hr.
  apply hasPath_false in Hfree, Hp, Hr.
  repeat constructor; try assumption.
  - intros [H | [H | H]].
    + apply (sibling_neq this "DeploymentProvider" "DeploymentResource");
        [discriminate | exact H].
    + symmetry in H. exact (child_neq_self _ _ H).
    + exact (Hr H).
  - intros [H | H].
    + symmetry in H. exact (child_neq_self _ _ H).
    + exact (Hp H).
Qed.

(** Paths other than the three created are as present as before. *)
Lemma hasPath_built (w : World) (q : Path) :
  q <> this ->
  q <> (this ++ ["DeploymentProvider"])%list ->
  q <> (this ++ ["DeploymentResource"])%list ->
  hasPath (builtWorld this props w) q = hasPath w q.
Proof.
  intros H1 H2 H3. unfold hasPath. cbn [builtWorld tree].
  destruct (in_dec Path_eq_dec q (tree w)) as [Hin | Hnin];
    destruct (in_dec Path_eq_dec q _) as [Hin' | Hnin']; try reflexivity.
  - exfalso. apply Hnin'. right; right; right. exact Hin.
  - exfalso. destruct Hin' as [H | [H | [H | H]]]; congruence.
Qed.

End Run.

Lemma EcsDeployment_new_inr
    (scope : Path) (id : string) (props : EcsDeploymentProps)
    (w w1 : World) (d : EcsDeployment) :
  EcsDeployment_new scope id props w = (inr d, w1) ->
  hasPath w (scope ++ [id])%list = false /\
  d = deploymentAt (scope ++ [id])%list /\
  w1 = builtWorld (scope ++ [id])%list props w.
Proof.
  rewrite EcsDeployment_new_run.
  destruct (hasPath w (scope ++ [id])%list); [discriminate|].
  destruct (hasPath w _); [discriminate|].
  destruct (hasPath w _); [discriminate|].
  intros H. injection H as <- <-. repeat split.
Qed.

Lemma closedTree_groupsWorld : closedTree groupsWorld.
Proof.
  intros p [<- | [<- | [<- | [<- | []]]]] Hlen; simpl in *;
    first [lia | tauto].
Defined.

(** X5: whether [forDeploymentGroup] collides is decided by the child
    named 'Deployment' of the deployment group alone: when the group has such
    a child, whatever it is, the call throws the duplicate-child error for
    the group and 'Deployment' and leaves the world as it was; and when the
    call returns, the group had no such child before and has one after,
    which is the node of the deployment returned. *)
Theorem deployment_child_decides_collision
    (props : EcsDeploymentProps) (w : World) :
  (hasPath w (deploymentPath props) = true ->
   forDeploymentGroup props w =
     (inl (DuplicateChild (dg_node (deploymentGroup props)) "Deployment"), w)) /\
  (forall (d : EcsDeployment) (w' : World),
      forDeploymentGroup props w = (inr d, w') ->
      hasPath w (deploymentPath props) = false /\
      hasPath w' (deploymentPath props) = true /\
      node d = deploymentPath props).
Proof.
  split.
  - intros Htaken. now apply EcsDeployment_new_taken.
  - intros d w' Hrun.
    apply EcsDeployment_new_inr in Hrun as (Hfree & -> & ->).
    split; [exact Hfree|]. split; [|reflexivity].
    apply hasPath_true. cbn [builtWorld tree]. right; right; left.
    reflexivity.
Qed.

Lemma deployment_child_decides_collision_witness :
  forDeploymentGroup sampleProps occupiedWorld =
    (inl (DuplicateChild ["Stack"; "Group"] "Deployment"), occupiedWorld) /\
  hasPath groupsWorld ["Stack"; "Group"; "Deployment"] = false /\
  hasPath (snd (forDeploymentGroup sampleProps groupsWorld))
    ["Stack"; "Group"; "Deployment"] = true.
Proof.
  split.
  - exact (proj1 (deployment_child_decides_collision sampleProps occupiedWorld)
             eq_refl).
  - destruct (proj2 (deployment_child_decides_collision sampleProps groupsWorld)
                _ _ eq_refl) as (Hbefore & Hafter & _).
    split; [exact Hbefore | exact Hafter].
Defined.

(** X6: construction keeps the tree well formed: started in a closed tree
    without repeated paths, under a scope that is in the tree, the
    constructor leaves a closed tree without repeated paths, whether it
    throws or not. *)
Theorem construction_keeps_tree_invariants
    (scope : Path) (id : string) (props : EcsDeploymentProps) (w : World) :
  closedTree w -> NoDup (tree w) ->
  scope = [] \/ In scope (tree w) ->
  closedTree (snd (EcsDeployment_new scope id props w)) /\
  NoDup (tree (snd (EcsDeployment_new scope id props w))).
Proof.
  intros Hclosed Hnodup Hscope.
  destruct (hasPath w (scope ++ [id])%list) eqn:Hthis.
  - rewrite (EcsDeployment_new_taken scope id props w Hthis). split; assumption.
  - rewrite (EcsDeployment_new_closed_free scope id props w Hclosed Hthis).
    split.
    + now apply closedTree_built.
    + now apply NoDup_built.
Qed.

Lemma construction_keeps_tree_invariants_witness :
  closedTree (snd (forDeploymentGroup sampleProps groupsWorld)) /\
  NoDup (tree (snd (forDeploymentGroup sampleProps groupsWorld))).
Proof.
  apply (construction_keeps_tree_invariants ["Stack"; "Group"] "Deployment"
           sampleProps groupsWorld closedTree_groupsWorld).
  - repeat constructor; simpl; intuition discriminate.
  - right. simpl. tauto.
Defined.

(** X7: whatever its outcome, the constructor only adds: every path of the
    tree stays, the providers and resources recorded before stay in place
    with at most one appended to each, a construction that throws registers
    no resource, and one that returns registers exactly one. *)
Theorem construction_only_appends
    (scope : Path) (id : string) (props : EcsDeploymentProps) (w : World) :
  let outcome := EcsDeployment_new scope id props w in
  incl (tree w) (tree (snd outcome)) /\
  (exists ps : list EcsDeploymentProvider,
      providers (snd outcome) = (providers w ++ ps)%list /\
      (length ps <= 1)%nat) /\
  (forall e : Error,
      fst outcome = inl e -> resources (snd outcome) = resources w) /\
  (forall d : EcsDeployment,
      fst outcome = inr d ->
      resources (snd outcome) =
        (resources w ++ [resourceAt (scope ++ [id])%list props])%list).
Proof.
  cbv zeta. rewrite EcsDeployment_new_run.
  destruct (hasPath w (scope ++ [id])%list);
    [|destruct (hasPath w _); [|destruct (hasPath w _)]];
    cbn [fst snd tree providers resources builtWorld].
  - repeat split; try discriminate.
    + apply incl_refl.
    + exists []. rewrite app_nil_r. split; [reflexivity | simpl; lia].
  - repeat split; try discriminate.
    + apply incl_tl, incl_refl.
    + exists []. rewrite app_nil_r. split; [reflexivity | simpl; lia].
  - repeat split; try discriminate.
    + do 2 apply incl_tl. apply incl_refl.
    + eexists. split; [reflexivity | simpl; lia].
  - repeat split; try discriminate.
    + do 3 apply incl_tl. apply incl_refl.
    + eexists. split; [reflexivity | simpl; lia].
Qed.

(** X8: deployments for different deployment groups do not disturb each
    other: in a closed tree, after a deployment for one group, a deployment
    for a group at another node whose 'Deployment' child is free succeeds,
    and the two custom resources are registered one after the other. *)
Theorem deployments_for_distinct_groups
    (p1 p2 : EcsDeploymentProps) (w w1 : World) (d1 : EcsDeployment) :
  closedTree w ->
  dg_node (deploymentGroup p1) = [] \/
    In (dg_node (deploymentGroup p1)) (tree w) ->
  dg_node (deploymentGroup p1) <> dg_node (deploymentGroup p2) ->
  forDeploymentGroup p1 w = (inr d1, w1) ->
  hasPath w (deploymentPath p2) = false ->
  forDeploymentGroup p2 w1 =
    (inr (deploymentAt (deploymentPath p2)),
     builtWorld (deploymentPath p2) p2 w1) /\
  resources (builtWorld (deploymentPath p2) p2 w1) =
    (resources w ++ [resourceOf p1; resourceOf p2])%list.
Proof.
  intros Hclosed Hscope Hneq Hrun1 Hfree2.
  apply EcsDeployment_new_inr in Hrun1 as (_ & _ & ->).
  split.
  - apply EcsDeployment_new_closed_free.
    + now apply closedTree_built.
    + rewrite hasPath_built; [exact Hfree2 | | |]; intros H.
      * apply app_inj_tail in H as [H _]. congruence.
      * apply app_inj_tail in H as [_ H]. discriminate.
      * apply app_inj_tail in H as [_ H]. discriminate.
  - cbn [builtWorld resources]. rewrite <- app_assoc. reflexivity.
Qed.

Lemma deployments_for_distinct_groups_witness :
  let w1 := snd (forDeploymentGroup sampleProps groupsWorld) in
  forDeploymentGroup elsewhereProps w1 =
    (inr (deploymentAt ["OtherStack"; "Group"; "Deployment"]),
     builtWorld ["OtherStack"; "Group"; "Deployment"] elsewhereProps w1) /\
  resources (builtWorld ["OtherStack"; "Group"; "Deployment"] elsewhereProps w1) =
    [resourceOf sampleProps; resourceOf elsewhereProps].
Proof.
  apply (deployments_for_distinct_groups sampleProps elsewhereProps
           groupsWorld (snd (forDeploymentGroup sampleProps groupsWorld))
           (deploymentAt ["Stack"; "Group"; "Deployment"])
           closedTree_groupsWorld).
  - right. simpl. tauto.
  - discriminate.
  - reflexivity.
  - reflexivity.
Defined.

(** X9: the one-deployment-per-group limit rests on the fixed id alone: in a
    closed tree, after [forDeploymentGroup] has succeeded for a group, the
    protected constructor called for the same group and timeout under
    another id, one that the framework takes as it is (not empty, without
    '/') and that is free under the group, returns too and registers a
    second custom resource after the first. *)
Theorem other_id_is_accepted
    (p1 p2 : EcsDeploymentProps) (id : string) (w w1 : World)
    (d1 : EcsDeployment) :
  let scope := dg_node (deploymentGroup p1) in
  closedTree w ->
  In scope (tree w) ->
  forDeploymentGroup p1 w = (inr d1, w1) ->
  deploymentGroup p2 = deploymentGroup p1 ->
  timeout p2 = timeout p1 ->
  id <> "" ->
  occurs slash id = false ->
  id <> "Deployment" ->
  hasPath w (scope ++ [id])%list = false ->
  exists (d2 : EcsDeployment) (w2 : World),
    EcsDeployment_new scope id p2 w1 = (inr d2, w2) /\
    node d2 = (scope ++ [id])%list /\
    node d2 <> node d1 /\
    resources w2 =
      (resources w ++ [resourceOf p1; resourceAt (scope ++ [id])%list p2])%list.
Proof.
  cbv zeta. intros Hclosed Hscope Hrun1 _ _ _ _ Hid Hfree.
  apply EcsDeployment_new_inr in Hrun1 as (_ & -> & ->).
  exists (deploymentAt (dg_node (deploymentGroup p1) ++ [id])%list).
  eexists. split; [|split; [|split]].
  - apply EcsDeployment_new_closed_free.
    + apply closedTree_built; [exact Hclosed | right; exact Hscope].
    + rewrite hasPath_built; [exact Hfree | | |]; intros H.
      * apply app_inv_head in H. congruence.
      * apply app_inj_tail in H as [H _]. symmetry in H.
        exact (child_neq_self _ _ H).
      * apply app_inj_tail in H as [H _]. symmetry in H.
        exact (child_neq_self _ _ H).
  - reflexivity.
  - cbn [deploymentAt node]. intros H. apply app_inv_head in H. congruence.
  - cbn [builtWorld resources]. rewrite <- app_assoc. reflexivity.
Qed.

Lemma other_id_is_accepted_witness :
  let w1 := snd (forDeploymentGroup sampleProps groupsWorld) in
  exists (d2 : EcsDeployment) (w2 : World),
    EcsDeployment_new ["Stack"; "Group"] "Canary" sampleProps w1 = (inr d2, w2) /\
    node d2 = ["Stack"; "Group"; "Canary"] /\
    node d2 <> ["Stack"; "Group"; "Deployment"] /\
    resources w2 =
      [resourceOf sampleProps;
       resourceAt ["Stack"; "Group"; "Canary"] sampleProps].
Proof.
  apply (other_id_is_accepted sampleProps sampleProps "Canary"
           groupsWorld (snd (forDeploymentGroup sampleProps groupsWorld))
           (deploymentAt ["Stack"; "Group"; "Deployment"])
           closedTree_groupsWorld).
  - simpl. tauto.
  - reflexivity.
  - reflexivity.
  - reflexivity.
  - discriminate.
  - reflexivity.
  - discriminate.
  - reflexivity.
Defined.
